(** * DailyUse auth flow: the onboarding state machine of [src/authFlow.ts]

    The module under verification fetches or creates a per-user profile
    document in Firestore and decides where a freshly authenticated user is
    routed; two further helpers patch the profile when the welcome wizard is
    completed and when an administrator approves the user.

    Firestore is an external collaborator.  It is modelled by its contract: a
    store of documents addressed by a collection path and a document id,
    with [getDoc] (read, absence is a normal answer), [setDoc] (full
    overwrite), [updateDoc] (merge into an existing document, rejected when
    there is none) and the [serverTimestamp] sentinel that the server
    replaces by its clock when a write commits. *)

From stdpp Require Import gmap strings fin_maps.

Open Scope string_scope.

(** ** Field values and documents *)

(** The values a profile document holds.  [VServerTimestamp] is the sentinel
    returned by [serverTimestamp()]; it only lives in data handed to a write
    and never in a stored document. *)
Inductive value : Type :=
  | VNull
  | VBool (b : bool)
  | VStr (s : string)
  | VTimestamp (t : N)
  | VServerTimestamp.

Global Instance value_eq_dec : EqDecision value.
Proof. solve_decision. Defined.

(** A JavaScript object / Firestore document: own properties by name.  A
    name that is not bound reads as [undefined]. *)
Abbreviation DocumentData := (gmap string value).

(** [string | null] *)
Definition nullable (s : option string) : value :=
  match s with
  | Some s => VStr s
  | None => VNull
  end.

(** JavaScript truthiness of a property read ([None] is [undefined]). *)
Definition truthy (v : option value) : bool :=
  match v with
  | None => false
  | Some VNull => false
  | Some (VBool b) => b
  | Some (VStr s) => negb (String.eqb s "")
  | Some (VTimestamp _) => true
  | Some VServerTimestamp => true
  end.

(** ** Types of [authFlow.ts] *)

Inductive OnboardingStatus : Type :=
  | pending_profile
  | pending_admin_approval
  | active.

Global Instance OnboardingStatus_eq_dec : EqDecision OnboardingStatus.
Proof. solve_decision. Defined.

(** The string literal each member of the union type stands for. *)
Definition status_literal (s : OnboardingStatus) : string :=
  match s with
  | pending_profile => "pending_profile"
  | pending_admin_approval => "pending_admin_approval"
  | active => "active"
  end.

Inductive Destination : Type := welcome | dashboard | admin.

Inductive LoginDecision : Type :=
  | Redirect (destination : Destination)
  | Error (message : string).

(** [interface FirebaseUser].  The interface declares [uid: string]; [uid]
    is an option here because [handleLogin] guards against the property
    being undefined at run time ([!user?.uid]). *)
Record FirebaseUser : Type := {
  uid : option string;
  email : option string;
  displayName : option string;
}.

(** The [additionalData] argument of [completeWelcomeStep].  Its declared
    type is
    [Partial<Omit<AppUserProfile, 'uid' | 'isAdmin' | 'onboardingStatus'>>],
    a structural type that the compiler checks on object literals only: at
    run time the argument is an object like any other, with whatever own
    properties the caller's value has.  A property that is present holds a
    Firestore value; [None] at a name says the object has no such
    property. *)
Abbreviation AdditionalData := (gmap string value).

(** The empty object literal, the default of [additionalData]. *)
Definition no_additionalData : AdditionalData := ∅.


(** [{ ...o, ...additionalData }]: every own property of [additionalData]
    is written over the object built so far, the others stay. *)
Definition spread (additionalData : AdditionalData) (o : DocumentData)
  : DocumentData :=
  additionalData ∪ o.

Record HandleLoginOptions : Type := {
  usersCollectionPath : option string;
}.

Definition DEFAULT_USERS_COLLECTION : string := "users".

(** ** The Firestore store *)

(** [doc(db, path, id)]: a document reference. *)
Abbreviation DocumentReference := (string * string)%type.

Definition doc (path id : string) : DocumentReference := (path, id).

Record Firestore : Type := {
  documents : gmap (string * string) (gmap string value);
  serverTime : N;
}.

Inductive fault : Type :=
  | NotFound
  | InvalidArgument.

(** The result of awaiting a promise: it resolves with a value or is
    rejected; either way the store is the one the calls so far left. *)
Inductive outcome (A : Type) : Type :=
  | Resolved (a : A) (db : Firestore)
  | Rejected (e : fault) (db : Firestore).
Arguments Resolved {A} a db.
Arguments Rejected {A} e db.

Definition Async (A : Type) : Type := Firestore → outcome A.

Global Instance Async_ret : MRet Async := λ A a db, Resolved a db.

Global Instance Async_bind : MBind Async := λ A B k m db,
  match m db with
  | Resolved a db' => k a db'
  | Rejected e db' => Rejected e db'
  end.

Definition throw {A : Type} (e : fault) : Async A := λ db, Rejected e db.

Definition store_after {A : Type} (r : outcome A) : Firestore :=
  match r with
  | Resolved _ db => db
  | Rejected _ db => db
  end.

(** The server replaces the timestamp sentinel by its clock. *)
Definition resolve_sentinel (now : N) (v : value) : value :=
  match v with
  | VServerTimestamp => VTimestamp now
  | _ => v
  end.

Definition commit (ref : DocumentReference) (d : DocumentData) (db : Firestore)
  : Firestore :=
  {| documents := <[ref := d]> (documents db);
     serverTime := N.succ (serverTime db) |}.

(** [getDoc(ref)]; the snapshot is the document when it exists. *)
Definition getDoc (ref : DocumentReference) : Async (option DocumentData) :=
  λ db, Resolved (documents db !! ref) db.

(** [setDoc(ref, data)]: unconditional overwrite. *)
Definition setDoc (ref : DocumentReference) (data : DocumentData) : Async unit :=
  λ db, Resolved () (commit ref (resolve_sentinel (serverTime db) <$> data) db).

(** [updateDoc(ref, data)]: the given fields replace those of the stored
    document, the others stay; rejected when the document does not exist. *)
Definition updateDoc (ref : DocumentReference) (data : DocumentData) : Async unit :=
  λ db,
    match documents db !! ref with
    | Some old =>
        Resolved ()
          (commit ref ((resolve_sentinel (serverTime db) <$> data) ∪ old) db)
    | None => Rejected NotFound db
    end.

(** ** The functions of [authFlow.ts] *)

Definition getUserProfile (usersCollectionPath uid : string)
  : Async (option DocumentData) :=
  let userRef := doc usersCollectionPath uid in
  snapshot ← getDoc userRef;
  match snapshot with
  | None => mret None
  | Some data => mret (Some data)
  end.

Definition bootstrapNewUser (usersCollectionPath : string) (user : FirebaseUser)
  : Async DocumentData :=
  match uid user with
  | None => throw InvalidArgument
  | Some id =>
      let userRef := doc usersCollectionPath id in
      let profile : DocumentData :=
        <["updatedAt" := VServerTimestamp]>
        (<["createdAt" := VServerTimestamp]>
        (<["onboardingStatus" := VStr "pending_profile"]>
        (<["isAdmin" := VBool false]>
        (<["designation" := VNull]>
        (<["displayName" := nullable (displayName user)]>
        (<["email" := nullable (email user)]>
        (<["uid" := VStr id]> ∅))))))) in
      _ ← setDoc userRef profile;
      mret profile
  end.

Definition completeWelcomeStep (usersCollectionPath uid designation : string)
    (additionalData : option AdditionalData) : Async unit :=
  let additionalData := default no_additionalData additionalData in
  let userRef := doc usersCollectionPath uid in
  updateDoc userRef
    (spread additionalData
      (<["updatedAt" := VServerTimestamp]>
      (<["onboardingStatus" := VStr "pending_admin_approval"]>
      (<["designation" := VStr designation]> ∅)))).

Definition approveUser (usersCollectionPath uid : string) : Async unit :=
  let userRef := doc usersCollectionPath uid in
  updateDoc userRef
    (<["updatedAt" := VServerTimestamp]>
    (<["onboardingStatus" := VStr "active"]> ∅)).

(** [case lit:] of a [switch]: strict equality of the scrutinee with a
    string literal. *)
Definition strict_eq (v : option value) (lit : string) : bool :=
  match v with
  | Some (VStr s) => String.eqb s lit
  | _ => false
  end.

(** The [db] handle of the options is the store the [Async] computation
    runs in.  The guard [!user?.uid] is written out by cases: it holds when
    [user] is null or undefined, when [uid] is undefined and when [uid] is
    the empty string. *)
Definition handleLogin (user : option FirebaseUser) (options : HandleLoginOptions)
  : Async LoginDecision :=
  let usersCollectionPath :=
    default DEFAULT_USERS_COLLECTION (usersCollectionPath options) in
  match user with
  | None => mret (Error "Missing Firebase user data.")
  | Some user =>
      match uid user with
      | None => mret (Error "Missing Firebase user data.")
      | Some id =>
          if negb (truthy (Some (VStr id))) then
            mret (Error "Missing Firebase user data.")
          else
            profile ← getUserProfile usersCollectionPath id;
            match profile with
            | None =>
                _ ← bootstrapNewUser usersCollectionPath user;
                mret (Redirect welcome)
            | Some profile =>
                if truthy (profile !! "isAdmin") then mret (Redirect admin)
                else
                  let status := profile !! "onboardingStatus" in
                  if strict_eq status "pending_profile" then
                    mret (Redirect welcome)
                  else if strict_eq status "pending_admin_approval" then
                    mret (Error "Awaiting admin approval.")
                  else if strict_eq status "active" then
                    mret (Redirect dashboard)
                  else
                    mret (Error "Invalid onboarding status.")
            end
      end
  end.

(** ** Reading a stored profile *)

(** The member of [OnboardingStatus] a stored value denotes, if any. *)
Definition status_of_value (v : option value) : option OnboardingStatus :=
  if strict_eq v "pending_profile" then Some pending_profile
  else if strict_eq v "pending_admin_approval" then Some pending_admin_approval
  else if strict_eq v "active" then Some active
  else None.

Definition status_of (profile : DocumentData) : option OnboardingStatus :=
  status_of_value (profile !! "onboardingStatus").

(** Position of a status on the line
    [pending_profile -> pending_admin_approval -> active]. *)
Definition status_rank (s : OnboardingStatus) : nat :=
  match s with
  | pending_profile => 0
  | pending_admin_approval => 1
  | active => 2
  end.

(** ** Operations of the core, as one step function *)

Inductive operation : Type :=
  | OpLogin (user : option FirebaseUser) (options : HandleLoginOptions)
  | OpCompleteWelcome (usersCollectionPath uid designation : string)
      (additionalData : option AdditionalData)
  | OpApprove (usersCollectionPath uid : string).

(** The store an operation leaves behind, whether its promise resolves or
    is rejected. *)
Definition run (o : operation) (db : Firestore) : Firestore :=
  match o with
  | OpLogin user options => store_after (handleLogin user options db)
  | OpCompleteWelcome path uid designation additionalData =>
      store_after (completeWelcomeStep path uid designation additionalData db)
  | OpApprove path uid => store_after (approveUser path uid db)
  end.

Definition empty_store (now : N) : Firestore :=
  {| documents := ∅; serverTime := now |}.

(** Stores that arise from an empty one through the operations of the
    core. *)
Inductive reachable : Firestore → Prop :=
  | reachable_empty now : reachable (empty_store now)
  | reachable_run o db : reachable db → reachable (run o db).

(** ** Sample data *)

Definition alice : FirebaseUser :=
  {| uid := Some "alice"; email := Some "alice@example.com";
     displayName := Some "Alice" |}.

Definition default_options : HandleLoginOptions :=
  {| usersCollectionPath := None |}.

Definition alice_created : Firestore :=
  run (OpLogin (Some alice) default_options) (empty_store 0).

Definition alice_pending : Firestore :=
  run (OpCompleteWelcome "users" "alice" "engineer" None) alice_created.

Definition alice_active : Firestore :=
  run (OpApprove "users" "alice") alice_pending.

Definition profile_at (db : Firestore) (path id : string) : option DocumentData :=
  documents db !! doc path id.

(** A store holding one hand-written profile for alice. *)
Definition store_with (profile : DocumentData) : Firestore :=
  {| documents := {[ doc "users" "alice" := profile ]}; serverTime := 7 |}.

(** An administrator whose status field holds a value outside the enum. *)
Definition admin_profile : DocumentData :=
  <["isAdmin" := VBool true]> (<["onboardingStatus" := VStr "suspended"]> ∅).

(** A regular user whose status field holds a value outside the enum. *)
Definition corrupt_profile : DocumentData :=
  <["isAdmin" := VBool false]> (<["onboardingStatus" := VStr "suspended"]> ∅).

Definition nobody : FirebaseUser :=
  {| uid := Some ""; email := None; displayName := None |}.

(** [{ designation: 'manager' }] *)
Definition manager_data : AdditionalData :=
  {[ "designation" := VStr "manager" ]}.

(** [{ designation: null }] *)
Definition null_designation_data : AdditionalData :=
  {[ "designation" := VNull ]}.

(** An object shaped like a whole profile, as a caller holds one in a
    variable: it has the properties that the declared type of
    [additionalData] leaves out. *)
Definition profile_shaped_data : AdditionalData :=
  <["uid" := VStr "mallory"]>
  (<["isAdmin" := VBool true]>
  (<["onboardingStatus" := VStr "pending_profile"]>
  (<["designation" := VStr "manager"]> ∅))).

(** ** The invariants the profile records are meant to satisfy *)

(** [designation] is null only while the status is [pending_profile]. *)
Definition designation_invariant (profile : DocumentData) : Prop :=
  profile !! "designation" = Some VNull →
  profile !! "onboardingStatus" = Some (VStr "pending_profile").

(** The status of every record that an operation finds is not moved
    backward by it. *)
Definition never_backward (o : operation) (db : Firestore) : Prop :=
  ∀ ref old new s s',
    documents db !! ref = Some old →
    documents (run o db) !! ref = Some new →
    status_of old = Some s → status_of new = Some s' →
    (status_rank s ≤ status_rank s')%nat.

(** The operation is a [completeWelcomeStep] on the record at [ref]. *)
Definition completes_welcome_at (o : operation) (ref : DocumentReference) : Prop :=
  match o with
  | OpCompleteWelcome path id _ _ => doc path id = ref
  | _ => False
  end.

(** The [onboardingStatus] property that the [additionalData] of a
    [completeWelcomeStep] carries, if it has one. *)
Definition supplied_status (o : operation) : option value :=
  match o with
  | OpCompleteWelcome _ _ _ additionalData =>
      default no_additionalData additionalData !! "onboardingStatus"
  | _ => None
  end.

(** Every record of the store satisfies [designation_invariant]. *)
Definition store_designation_invariant (db : Firestore) : Prop :=
  ∀ ref profile,
    documents db !! ref = Some profile → designation_invariant profile.

(** The calls under which [designation_invariant] is kept: any
    [handleLogin]; a [completeWelcomeStep] whose [additionalData] does not
    carry [designation: null]; an [approveUser] on a record whose
    designation is not null (or on no record). *)
Definition keeps_designation (o : operation) (db : Firestore) : Prop :=
  match o with
  | OpLogin _ _ => True
  | OpCompleteWelcome _ _ _ additionalData =>
      default no_additionalData additionalData !! "designation" ≠ Some VNull
  | OpApprove path id =>
      ∀ old, documents db !! doc path id = Some old →
             old !! "designation" ≠ Some VNull
  end.

(** ** Notions used in the further properties *)

(** The object literal of [bootstrapNewUser], with [stamp] for the two
    timestamps: the sentinel in the object the function returns, the
    server's time in the document it stores. *)
Definition default_profile (id : string) (user : FirebaseUser) (stamp : value)
  : DocumentData :=
  <["updatedAt" := stamp]>
  (<["createdAt" := stamp]>
  (<["onboardingStatus" := VStr "pending_profile"]>
  (<["isAdmin" := VBool false]>
  (<["designation" := VNull]>
  (<["displayName" := nullable (displayName user)]>
  (<["email" := nullable (email user)]>
  (<["uid" := VStr id]> ∅))))))).

(** The value a promise resolves with, if it resolves. *)
Definition answer {A : Type} (r : outcome A) : option A :=
  match r with
  | Resolved a _ => Some a
  | Rejected _ _ => None
  end.

(** The one document an operation may write to. *)
Definition target (o : operation) : option DocumentReference :=
  match o with
  | OpLogin user options =>
      id ← user ≫= uid;
      Some (doc (default DEFAULT_USERS_COLLECTION (usersCollectionPath options))
              id)
  | OpCompleteWelcome path id _ _ => Some (doc path id)
  | OpApprove path id => Some (doc path id)
  end.




(** A record whose [isAdmin] holds a string. *)
Definition flagged_profile : DocumentData :=
  <["isAdmin" := VStr "yes"]> (<["onboardingStatus" := VStr "active"]> ∅).



Definition bob : FirebaseUser :=
  {| uid := Some "bob"; email := None; displayName := Some "Bob" |}.

(** * Properties *)

(** ** The store primitives *)

Lemma string_eqb_false (s t : string) : s ≠ t → String.eqb s t = false.
Proof. intros H. by apply String.eqb_neq. Qed.

Lemma truthy_nonempty (id : string) : id ≠ "" → truthy (Some (VStr id)) = true.
Proof. intros H. simpl. by rewrite string_eqb_false. Qed.

Lemma lookup_patch (now : N) (data old : DocumentData) (k : string) :
  ((resolve_sentinel now <$> data) ∪ old) !! k =
  match data !! k with
  | Some v => Some (resolve_sentinel now v)
  | None => old !! k
  end.
Proof.
  rewrite lookup_union, lookup_fmap.
  destruct (data !! k) as [v|]; simpl.
  - by destruct (old !! k).
  - by destruct (old !! k).
Qed.

Lemma updateDoc_existing ref data db old :
  documents db !! ref = Some old →
  updateDoc ref data db =
  Resolved () (commit ref ((resolve_sentinel (serverTime db) <$> data) ∪ old) db).
Proof. intros H. unfold updateDoc. by rewrite H. Qed.

Lemma updateDoc_missing ref data db :
  documents db !! ref = None → updateDoc ref data db = Rejected NotFound db.
Proof. intros H. unfold updateDoc. by rewrite H. Qed.

Lemma commit_lookup ref d db : documents (commit ref d db) !! ref = Some d.
Proof. simpl. apply lookup_insert_eq. Qed.

Lemma commit_lookup_ne ref ref' d db :
  ref ≠ ref' → documents (commit ref d db) !! ref' = documents db !! ref'.
Proof. intros H. simpl. by apply lookup_insert_ne. Qed.

(** ** Object spread *)

Lemma spread_lookup (ad : AdditionalData) (o : DocumentData) (k : string) :
  spread ad o !! k =
  match ad !! k with
  | Some v => Some v
  | None => o !! k
  end.
Proof.
  unfold spread. rewrite lookup_union.
  by destruct (ad !! k), (o !! k).
Qed.

Lemma no_additionalData_lookup (k : string) :
  default no_additionalData None !! k = None.
Proof. apply lookup_empty. Qed.

(** The three properties that [completeWelcomeStep] writes itself. *)
Lemma welcome_literal_lookup (designation : string) (k : string) :
  (<["updatedAt" := VServerTimestamp]>
  (<["onboardingStatus" := VStr "pending_admin_approval"]>
  (<["designation" := VStr designation]> (∅ : DocumentData)))) !! k =
  if decide (k = "updatedAt") then Some VServerTimestamp
  else if decide (k = "onboardingStatus")
    then Some (VStr "pending_admin_approval")
  else if decide (k = "designation") then Some (VStr designation)
  else None.
Proof.
  repeat case_decide; subst; try done.
  by rewrite !lookup_insert_ne, lookup_empty.
Qed.

Lemma resolve_sentinel_nullable now s :
  resolve_sentinel now (nullable s) = nullable s.
Proof. by destruct s. Qed.

(** What [completeWelcomeStep] does to an existing record, property by
    property: a property of [additionalData] is the one stored; failing
    that, the three properties of the object literal; failing that, the
    value the record had. *)
Lemma completeWelcomeStep_existing path id designation additionalData db old :
  documents db !! doc path id = Some old →
  ∃ new,
    completeWelcomeStep path id designation additionalData db =
      Resolved () (commit (doc path id) new db) ∧
    ∀ k, new !! k =
      match default no_additionalData additionalData !! k with
      | Some v => Some (resolve_sentinel (serverTime db) v)
      | None =>
          if decide (k = "updatedAt") then Some (VTimestamp (serverTime db))
          else if decide (k = "onboardingStatus")
            then Some (VStr "pending_admin_approval")
          else if decide (k = "designation") then Some (VStr designation)
          else old !! k
      end.
Proof.
  intros Hold. eexists. split.
  - unfold completeWelcomeStep. by apply updateDoc_existing.
  - intros k. rewrite lookup_patch, spread_lookup, welcome_literal_lookup.
    destruct (default no_additionalData additionalData !! k); [done|].
    by repeat case_decide.
Qed.

(** With the default [additionalData]. *)
Lemma completeWelcomeStep_existing_default path id designation db old :
  documents db !! doc path id = Some old →
  ∃ new,
    completeWelcomeStep path id designation None db =
      Resolved () (commit (doc path id) new db) ∧
    new !! "onboardingStatus" = Some (VStr "pending_admin_approval") ∧
    new !! "designation" = Some (VStr designation) ∧
    new !! "updatedAt" = Some (VTimestamp (serverTime db)) ∧
    ∀ k, k ≠ "designation" → k ≠ "updatedAt" → k ≠ "onboardingStatus" →
         new !! k = old !! k.
Proof.
  intros Hold.
  destruct (completeWelcomeStep_existing path id designation None db old Hold)
    as (new & Hrun & Hk).
  exists new. split; [done|].
  repeat split.
  - by rewrite Hk, no_additionalData_lookup.
  - by rewrite Hk, no_additionalData_lookup.
  - by rewrite Hk, no_additionalData_lookup.
  - intros k ? ? ?. rewrite Hk, no_additionalData_lookup.
    by repeat case_decide.
Qed.

(** What [approveUser] does to an existing record. *)
Lemma approveUser_existing path id db old :
  documents db !! doc path id = Some old →
  ∃ new,
    approveUser path id db = Resolved () (commit (doc path id) new db) ∧
    new !! "onboardingStatus" = Some (VStr "active") ∧
    new !! "updatedAt" = Some (VTimestamp (serverTime db)) ∧
    ∀ k, k ≠ "onboardingStatus" → k ≠ "updatedAt" → new !! k = old !! k.
Proof.
  intros Hold. eexists. split; [|split; [|split]].
  - unfold approveUser. by apply updateDoc_existing.
  - by rewrite lookup_patch.
  - by rewrite lookup_patch.
  - intros k ? ?.
    by rewrite lookup_patch, !lookup_insert_ne, lookup_empty.
Qed.

(** ** [handleLogin] *)

(** The guard [!user?.uid]. *)
Lemma handleLogin_guard (user : option FirebaseUser)
    (options : HandleLoginOptions) (db : Firestore) :
  user ≫= uid = None ∨ user ≫= uid = Some "" →
  handleLogin user options db
  = Resolved (Error "Missing Firebase user data.") db.
Proof.
  intros H. unfold handleLogin.
  destruct user as [u|]; [|done]. simpl in H.
  destruct (uid u) as [id|]; [|done].
  destruct H as [H|H]; [done|].
  by injection H as ->.
Qed.

Section HandleLogin.
Variable user : FirebaseUser.
Variable id : string.
Variable options : HandleLoginOptions.
Variable db : Firestore.

Hypothesis user_uid : uid user = Some id.
Hypothesis uid_nonempty : id ≠ "".

(** Past the guard, an existing profile is only read. *)
Lemma handleLogin_existing profile :
  documents db !!
  doc (default DEFAULT_USERS_COLLECTION (usersCollectionPath options)) id
  = Some profile →
  handleLogin (Some user) options db =
  Resolved
    (if truthy (profile !! "isAdmin") then Redirect admin
     else if strict_eq (profile !! "onboardingStatus") "pending_profile"
       then Redirect welcome
     else if strict_eq (profile !! "onboardingStatus") "pending_admin_approval"
       then Error "Awaiting admin approval."
     else if strict_eq (profile !! "onboardingStatus") "active"
       then Redirect dashboard
     else Error "Invalid onboarding status.")
    db.
Proof.
  intros Hp. unfold handleLogin. rewrite user_uid.
  rewrite truthy_nonempty by done. simpl.
  unfold getUserProfile, getDoc, mbind, Async_bind, mret, Async_ret.
  rewrite Hp.
  destruct (truthy (profile !! "isAdmin")); [done|].
  by repeat (destruct (strict_eq _ _); [done|]).
Qed.

(** Past the guard, a missing profile is created by [bootstrapNewUser]. *)
Lemma handleLogin_absent :
  documents db !!
  doc (default DEFAULT_USERS_COLLECTION (usersCollectionPath options)) id
  = None →
  handleLogin (Some user) options db =
  Resolved (Redirect welcome)
    (commit
      (doc (default DEFAULT_USERS_COLLECTION (usersCollectionPath options)) id)
      (<["updatedAt" := VTimestamp (serverTime db)]>
      (<["createdAt" := VTimestamp (serverTime db)]>
      (<["onboardingStatus" := VStr "pending_profile"]>
      (<["isAdmin" := VBool false]>
      (<["designation" := VNull]>
      (<["displayName" := nullable (displayName user)]>
      (<["email" := nullable (email user)]>
      (<["uid" := VStr id]> ∅))))))))
      db).
Proof.
  intros Hp. unfold handleLogin. rewrite user_uid.
  rewrite truthy_nonempty by done. simpl.
  unfold getUserProfile, getDoc, mbind, Async_bind, mret, Async_ret.
  rewrite Hp.
  unfold bootstrapNewUser. rewrite user_uid.
  unfold setDoc, mbind, Async_bind, mret, Async_ret.
  rewrite !fmap_insert, fmap_empty. simpl.
  by rewrite !resolve_sentinel_nullable.
Qed.
End HandleLogin.

(** C5: for an existing record whose [isAdmin] is true, [handleLogin]
    answers redirect-to-admin whatever the record's [onboardingStatus]
    holds (the record is otherwise arbitrary, so the status may be any
    value, valid or not, or missing), and the store is left as it was: the
    [isAdmin] test comes before the branching on the status. *)
Theorem handleLogin_admin_first (user : FirebaseUser) (id : string)
    (options : HandleLoginOptions) (db : Firestore) (profile : DocumentData) :
  uid user = Some id →
  id ≠ "" →
  documents db !!
    doc (default DEFAULT_USERS_COLLECTION (usersCollectionPath options)) id
    = Some profile →
  profile !! "isAdmin" = Some (VBool true) →
  handleLogin (Some user) options db = Resolved (Redirect admin) db.
Proof.
  intros Huid Hne Hp Hadmin.
  rewrite (handleLogin_existing user id options db Huid Hne profile Hp).
  by rewrite Hadmin.
Qed.

Lemma handleLogin_admin_first_witness :
  handleLogin (Some alice) default_options (store_with admin_profile)
  = Resolved (Redirect admin) (store_with admin_profile).
Proof.
  apply (handleLogin_admin_first alice "alice" default_options
           (store_with admin_profile) admin_profile).
  - reflexivity.
  - discriminate.
  - reflexivity.
  - reflexivity.
Defined.

(** C6: for an identity with a non-empty uid and no record in the store,
    [handleLogin] answers redirect-to-welcome and the store gains exactly
    one record, at the uid's key: [isAdmin] false, [onboardingStatus]
    ['pending_profile'], [designation] null, [uid], [email] and
    [displayName] copied from the identity, both timestamps set by the
    server.  Every other record is untouched. *)
Theorem handleLogin_creates_default_profile (user : FirebaseUser) (id : string)
    (options : HandleLoginOptions) (db : Firestore) :
  let ref := doc (default DEFAULT_USERS_COLLECTION (usersCollectionPath options)) id in
  uid user = Some id →
  id ≠ "" →
  documents db !! ref = None →
  ∃ (db' : Firestore) (profile : DocumentData),
    handleLogin (Some user) options db = Resolved (Redirect welcome) db' ∧
    documents db' = <[ref := profile]> (documents db) ∧
    size (documents db') = S (size (documents db)) ∧
    (∀ ref', ref' ≠ ref → documents db' !! ref' = documents db !! ref') ∧
    profile !! "uid" = Some (VStr id) ∧
    profile !! "email" = Some (nullable (email user)) ∧
    profile !! "displayName" = Some (nullable (displayName user)) ∧
    profile !! "designation" = Some VNull ∧
    profile !! "isAdmin" = Some (VBool false) ∧
    profile !! "onboardingStatus" = Some (VStr "pending_profile") ∧
    profile !! "createdAt" = Some (VTimestamp (serverTime db)) ∧
    profile !! "updatedAt" = Some (VTimestamp (serverTime db)).
Proof.
  intros ref Huid Hne Hp.
  eexists _, _. split.
  { by apply (handleLogin_absent user id options db Huid Hne). }
  split; [done|]. split.
  { simpl. by apply map_size_insert_None. }
  split.
  { intros ref' Hr. by apply commit_lookup_ne. }
  by repeat split.
Qed.

Lemma handleLogin_creates_default_profile_witness :
  ∃ (db' : Firestore) (profile : DocumentData),
    handleLogin (Some alice) default_options (empty_store 0)
      = Resolved (Redirect welcome) db' ∧
    documents db' = <[doc "users" "alice" := profile]> ∅ ∧
    profile !! "designation" = Some VNull ∧
    profile !! "isAdmin" = Some (VBool false) ∧
    profile !! "onboardingStatus" = Some (VStr "pending_profile").
Proof.
  destruct (handleLogin_creates_default_profile alice "alice" default_options
              (empty_store 0))
    as (db' & profile & H1 & H2 & _ & _ & _ & _ & _ & H3 & H4 & H5 & _).
  - reflexivity.
  - discriminate.
  - reflexivity.
  - exists db', profile. by repeat split.
Defined.

Lemma strict_eq_false (v : option value) (lit : string) :
  v ≠ Some (VStr lit) → strict_eq v lit = false.
Proof.
  intros H. destruct v as [[| |s| |]|]; simpl; try done.
  apply string_eqb_false. congruence.
Qed.

(** C7: for an existing record whose [isAdmin] is false, [handleLogin]
    branches on [onboardingStatus]: ['pending_profile'] gives
    redirect-to-welcome, ['pending_admin_approval'] the "Awaiting admin
    approval." error decision, ['active'] redirect-to-dashboard, and any
    other value (another string, a non-string, or no value) the "Invalid
    onboarding status." error decision.  In all four branches the promise
    resolves with the store exactly as it was. *)
Theorem handleLogin_routes_by_status (user : FirebaseUser) (id : string)
    (options : HandleLoginOptions) (db : Firestore) (profile : DocumentData) :
  uid user = Some id →
  id ≠ "" →
  documents db !!
    doc (default DEFAULT_USERS_COLLECTION (usersCollectionPath options)) id
    = Some profile →
  profile !! "isAdmin" = Some (VBool false) →
  (profile !! "onboardingStatus" = Some (VStr "pending_profile") →
   handleLogin (Some user) options db = Resolved (Redirect welcome) db) ∧
  (profile !! "onboardingStatus" = Some (VStr "pending_admin_approval") →
   handleLogin (Some user) options db
   = Resolved (Error "Awaiting admin approval.") db) ∧
  (profile !! "onboardingStatus" = Some (VStr "active") →
   handleLogin (Some user) options db = Resolved (Redirect dashboard) db) ∧
  (profile !! "onboardingStatus" ≠ Some (VStr "pending_profile") →
   profile !! "onboardingStatus" ≠ Some (VStr "pending_admin_approval") →
   profile !! "onboardingStatus" ≠ Some (VStr "active") →
   handleLogin (Some user) options db
   = Resolved (Error "Invalid onboarding status.") db).
Proof.
  intros Huid Hne Hp Hadmin.
  rewrite (handleLogin_existing user id options db Huid Hne profile Hp).
  rewrite Hadmin. simpl truthy. cbv iota.
  repeat split.
  - by intros ->.
  - by intros ->.
  - by intros ->.
  - intros H1 H2 H3. by rewrite !strict_eq_false.
Qed.

Lemma handleLogin_routes_by_status_witness :
  handleLogin (Some alice) default_options alice_created
    = Resolved (Redirect welcome) alice_created ∧
  handleLogin (Some alice) default_options alice_pending
    = Resolved (Error "Awaiting admin approval.") alice_pending ∧
  handleLogin (Some alice) default_options alice_active
    = Resolved (Redirect dashboard) alice_active ∧
  handleLogin (Some alice) default_options (store_with corrupt_profile)
    = Resolved (Error "Invalid onboarding status.") (store_with corrupt_profile).
Proof.
  split; [|split; [|split]].
  - destruct (handleLogin_routes_by_status alice "alice" default_options
                alice_created
                (default ∅ (profile_at alice_created "users" "alice")))
      as (H & _); [reflexivity | discriminate | reflexivity
                   | reflexivity |].
    apply H. reflexivity.
  - destruct (handleLogin_routes_by_status alice "alice" default_options
                alice_pending
                (default ∅ (profile_at alice_pending "users" "alice")))
      as (_ & H & _); [reflexivity | discriminate | reflexivity
                       | reflexivity |].
    apply H. reflexivity.
  - destruct (handleLogin_routes_by_status alice "alice" default_options
                alice_active
                (default ∅ (profile_at alice_active "users" "alice")))
      as (_ & _ & H & _); [reflexivity | discriminate | reflexivity
                           | reflexivity |].
    apply H. reflexivity.
  - destruct (handleLogin_routes_by_status alice "alice" default_options
                (store_with corrupt_profile) corrupt_profile)
      as (_ & _ & _ & H); [reflexivity | discriminate | reflexivity
                           | reflexivity |].
    apply H; vm_compute; discriminate.
Defined.

(** C8: when the identity is missing, or its uid is missing or the empty
    string, [handleLogin] resolves (it is not rejected) with the "Missing
    Firebase user data." error decision, and the store is exactly as it
    was: nothing is written. *)
Theorem handleLogin_missing_uid (user : option FirebaseUser)
    (options : HandleLoginOptions) (db : Firestore) :
  user ≫= uid = None ∨ user ≫= uid = Some "" →
  handleLogin user options db
  = Resolved (Error "Missing Firebase user data.") db.
Proof. apply handleLogin_guard. Qed.

Lemma handleLogin_missing_uid_witness :
  handleLogin (Some nobody) default_options alice_created
    = Resolved (Error "Missing Firebase user data.") alice_created ∧
  handleLogin None default_options alice_created
    = Resolved (Error "Missing Firebase user data.") alice_created.
Proof.
  split.
  - apply (handleLogin_missing_uid (Some nobody) default_options alice_created).
    right. reflexivity.
  - apply (handleLogin_missing_uid None default_options alice_created).
    left. reflexivity.
Defined.

(** ** [approveUser] *)

(** C9: on an existing record, [approveUser] resolves, the record's
    [onboardingStatus] becomes ['active'], and every field other than
    [onboardingStatus] and [updatedAt] keeps its value: in particular [uid],
    [email], [displayName], [designation], [isAdmin] and [createdAt].  No
    other record of the store is touched. *)
Theorem approveUser_only_status_and_timestamp (path id : string)
    (db : Firestore) (old : DocumentData) :
  documents db !! doc path id = Some old →
  ∃ (db' : Firestore) (new : DocumentData),
    approveUser path id db = Resolved () db' ∧
    documents db' !! doc path id = Some new ∧
    new !! "onboardingStatus" = Some (VStr "active") ∧
    (∀ k, k ≠ "onboardingStatus" → k ≠ "updatedAt" → new !! k = old !! k) ∧
    new !! "uid" = old !! "uid" ∧
    new !! "email" = old !! "email" ∧
    new !! "displayName" = old !! "displayName" ∧
    new !! "designation" = old !! "designation" ∧
    new !! "isAdmin" = old !! "isAdmin" ∧
    new !! "createdAt" = old !! "createdAt" ∧
    (∀ ref', ref' ≠ doc path id → documents db' !! ref' = documents db !! ref').
Proof.
  intros Hold.
  destruct (approveUser_existing path id db old Hold) as (new & Hrun & Hs & _ & Hk).
  exists (commit (doc path id) new db), new.
  split; [done|]. split; [apply commit_lookup|]. split; [done|].
  split; [done|].
  repeat split; try (by apply Hk).
  intros ref' Hr. by apply commit_lookup_ne.
Qed.

Lemma approveUser_only_status_and_timestamp_witness :
  ∃ (db' : Firestore) (new : DocumentData),
    approveUser "users" "alice" alice_pending = Resolved () db' ∧
    documents db' !! doc "users" "alice" = Some new ∧
    new !! "onboardingStatus" = Some (VStr "active") ∧
    new !! "designation" = Some (VStr "engineer").
Proof.
  destruct (approveUser_only_status_and_timestamp "users" "alice" alice_pending
              (default ∅ (profile_at alice_pending "users" "alice")))
    as (db' & new & H1 & H2 & H3 & _ & _ & _ & _ & H4 & _).
  - reflexivity.
  - exists db', new. repeat split; [done..|].
    rewrite H4. reflexivity.
Defined.

(** ** [completeWelcomeStep] *)

Lemma status_of_lookup (profile : DocumentData) (s : OnboardingStatus) :
  profile !! "onboardingStatus" = Some (VStr (status_literal s)) →
  status_of profile = Some s.
Proof. intros H. unfold status_of. rewrite H. by destruct s. Qed.






(** C3, as stated, fails: called with the empty string as designation on
    a record in [pending_profile], [completeWelcomeStep] resolves and the
    record is moved to [pending_admin_approval], with the empty string as
    its designation. *)
Lemma completeWelcomeStep_empty_designation_transitions :
  (profile_at alice_created "users" "alice" ≫= status_of)
    = Some pending_profile ∧
  ∃ (db' : Firestore) (new : DocumentData),
    completeWelcomeStep "users" "alice" "" None alice_created
      = Resolved () db' ∧
    profile_at db' "users" "alice" = Some new ∧
    status_of new = Some pending_admin_approval ∧
    new !! "designation" = Some (VStr "").
Proof.
  split; [reflexivity|].
  exists (store_after
            (completeWelcomeStep "users" "alice" "" None alice_created)),
    (default ∅ (profile_at
       (store_after
          (completeWelcomeStep "users" "alice" "" None alice_created))
       "users" "alice")).
  repeat split; reflexivity.
Qed.

(** C3, amended: [completeWelcomeStep] makes no test on the designation: on
    a record in [pending_profile] it resolves and carries out the
    transition to [pending_admin_approval] for every designation string,
    the empty one included, and stores that string as the designation. *)
Theorem completeWelcomeStep_any_designation (path id designation : string)
    (db : Firestore) (old : DocumentData) :
  documents db !! doc path id = Some old →
  status_of old = Some pending_profile →
  ∃ (db' : Firestore) (new : DocumentData),
    completeWelcomeStep path id designation None db = Resolved () db' ∧
    documents db' !! doc path id = Some new ∧
    status_of new = Some pending_admin_approval ∧
    new !! "designation" = Some (VStr designation).
Proof.
  intros Hold _.
  destruct (completeWelcomeStep_existing_default path id designation
              db old Hold) as (new & Hrun & Hs & Hdes & _).
  exists (commit (doc path id) new db), new.
  split; [done|]. split; [apply commit_lookup|].
  split; [by apply (status_of_lookup new pending_admin_approval)|done].
Qed.

Lemma completeWelcomeStep_any_designation_witness :
  ∃ (db' : Firestore) (new : DocumentData),
    completeWelcomeStep "users" "alice" "" None alice_created
      = Resolved () db' ∧
    documents db' !! doc "users" "alice" = Some new ∧
    status_of new = Some pending_admin_approval ∧
    new !! "designation" = Some (VStr "").
Proof.
  apply (completeWelcomeStep_any_designation "users" "alice" "" alice_created
           (default ∅ (profile_at alice_created "users" "alice"))).
  - reflexivity.
  - reflexivity.
Defined.

(** ** The operations as steps on the store *)

Lemma updateDoc_store ref data db :
  store_after (updateDoc ref data db) =
  match documents db !! ref with
  | Some old =>
      commit ref ((resolve_sentinel (serverTime db) <$> data) ∪ old) db
  | None => db
  end.
Proof. unfold updateDoc. by destruct (documents db !! ref). Qed.

Lemma updateDoc_other ref data db ref' :
  ref ≠ ref' →
  documents (store_after (updateDoc ref data db)) !! ref' = documents db !! ref'.
Proof.
  intros Hne. rewrite updateDoc_store.
  destruct (documents db !! ref); [|done].
  by apply commit_lookup_ne.
Qed.

(** [handleLogin] leaves the store alone or adds the default profile at a
    key that had no record. *)
Lemma handleLogin_store user options db :
  store_after (handleLogin user options db) = db ∨
  ∃ (id : string) (profile : DocumentData),
    let ref :=
      doc (default DEFAULT_USERS_COLLECTION (usersCollectionPath options)) id in
    documents db !! ref = None ∧
    store_after (handleLogin user options db) = commit ref profile db ∧
    profile !! "designation" = Some VNull ∧
    profile !! "onboardingStatus" = Some (VStr "pending_profile").
Proof.
  destruct user as [u|]; [|by left].
  destruct (uid u) as [id|] eqn:Huid.
  2:{ left. rewrite (handleLogin_guard (Some u)); [done|].
      left. simpl. by rewrite Huid. }
  destruct (decide (id = "")) as [->|Hne].
  { left. rewrite (handleLogin_guard (Some u)); [done|].
    right. simpl. by rewrite Huid. }
  destruct (documents db !!
    doc (default DEFAULT_USERS_COLLECTION (usersCollectionPath options)) id)
    as [profile|] eqn:Hp.
  - left. by rewrite (handleLogin_existing u id options db Huid Hne profile Hp).
  - right. eexists id, _. cbv zeta. split; [done|].
    rewrite (handleLogin_absent u id options db Huid Hne Hp).
    split; [reflexivity|]. by split.
Qed.

(** No operation removes a record, and [handleLogin] does not change one. *)
Lemma handleLogin_keeps_records user options db ref old :
  documents db !! ref = Some old →
  documents (store_after (handleLogin user options db)) !! ref = Some old.
Proof.
  intros Hold.
  destruct (handleLogin_store user options db)
    as [->|(id & profile & Hnone & -> & _)]; [done|].
  rewrite commit_lookup_ne; [done|].
  intros <-. cbv zeta in Hnone. by rewrite Hold in Hnone.
Qed.

Lemma completeWelcomeStep_missing path id designation additionalData db :
  documents db !! doc path id = None →
  store_after (completeWelcomeStep path id designation additionalData db) = db.
Proof.
  intros Hnone. unfold completeWelcomeStep.
  by rewrite updateDoc_store, Hnone.
Qed.

Lemma completeWelcomeStep_other path id designation additionalData db ref :
  doc path id ≠ ref →
  documents
    (store_after (completeWelcomeStep path id designation additionalData db))
    !! ref = documents db !! ref.
Proof. intros Hne. unfold completeWelcomeStep. by apply updateDoc_other. Qed.

Lemma approveUser_missing path id db :
  documents db !! doc path id = None →
  store_after (approveUser path id db) = db.
Proof.
  intros Hnone. unfold approveUser.
  by rewrite updateDoc_store, Hnone.
Qed.

Lemma approveUser_other path id db ref :
  doc path id ≠ ref →
  documents (store_after (approveUser path id db)) !! ref = documents db !! ref.
Proof. intros Hne. unfold approveUser. by apply updateDoc_other. Qed.

Lemma reachable_alice_created : reachable alice_created.
Proof. apply reachable_run, reachable_empty. Qed.

Lemma reachable_alice_active : reachable alice_active.
Proof. do 2 apply reachable_run. apply reachable_alice_created. Qed.

(** ** The status line *)

(** C2, as stated, fails.  The store [alice_active] is reached by a login,
    a completed welcome step and an approval; a further
    [completeWelcomeStep] on that record takes its status from [active]
    back to [pending_admin_approval].  And on the store [alice_pending],
    reached by a login and a completed welcome step, a
    [completeWelcomeStep] with a profile-shaped [additionalData] takes the
    status from [pending_admin_approval] back to [pending_profile]. *)
Lemma completeWelcomeStep_moves_status_backward :
  reachable alice_active ∧
  ¬ never_backward (OpCompleteWelcome "users" "alice" "engineer" None)
      alice_active ∧
  reachable alice_pending ∧
  ¬ never_backward
      (OpCompleteWelcome "users" "alice" "engineer" (Some profile_shaped_data))
      alice_pending.
Proof.
  split; [apply reachable_alice_active|]. split.
  { intros H.
    specialize (H (doc "users" "alice")
      (default ∅ (profile_at alice_active "users" "alice"))
      (default ∅ (profile_at
         (run (OpCompleteWelcome "users" "alice" "engineer" None) alice_active)
         "users" "alice"))
      active pending_admin_approval).
    assert (status_rank active ≤ status_rank pending_admin_approval)%nat as Hle.
    { apply H; reflexivity. }
    simpl in Hle. lia. }
  split; [apply reachable_run, reachable_alice_created|].
  intros H.
  specialize (H (doc "users" "alice")
    (default ∅ (profile_at alice_pending "users" "alice"))
    (default ∅ (profile_at
       (run (OpCompleteWelcome "users" "alice" "engineer"
               (Some profile_shaped_data)) alice_pending)
       "users" "alice"))
    pending_admin_approval pending_profile).
  assert (status_rank pending_admin_approval ≤ status_rank pending_profile)%nat
    as Hle.
  { apply H; reflexivity. }
  simpl in Hle. lia.
Qed.

(** C2, amended: no operation removes a record, and the status of a record
    never moves backward under [handleLogin], under [approveUser], or under
    a [completeWelcomeStep] whose [additionalData] has no [onboardingStatus]
    property applied to a record in [pending_profile] or
    [pending_admin_approval].  There are two other outcomes, both of
    [completeWelcomeStep] on the record itself: applied to an [active]
    record it sets the status to [pending_admin_approval], since the helper
    writes the status without reading the current one; and when its
    [additionalData] has an [onboardingStatus] property, that property's
    value is what the record holds afterwards, whatever it is. *)
Theorem status_backward_only_by_completeWelcomeStep (o : operation)
    (db : Firestore) (ref : DocumentReference) (old : DocumentData)
    (s : OnboardingStatus) :
  documents db !! ref = Some old →
  status_of old = Some s →
  ∃ new : DocumentData,
    documents (run o db) !! ref = Some new ∧
    match supplied_status o with
    | Some v =>
        (∃ s', status_of new = Some s' ∧ (status_rank s ≤ status_rank s')%nat) ∨
        (completes_welcome_at o ref ∧
         new !! "onboardingStatus" = Some (resolve_sentinel (serverTime db) v))
    | None =>
        ∃ s', status_of new = Some s' ∧
          ((status_rank s ≤ status_rank s')%nat ∨
           (completes_welcome_at o ref ∧ s = active ∧
            s' = pending_admin_approval))
    end.
Proof.
  intros Hold Hs.
  destruct o as [user options | path id designation additionalData | path id];
    simpl run; simpl supplied_status.
  - exists old. split; [by apply handleLogin_keeps_records|].
    exists s. split; [done|]. left. lia.
  - destruct (decide (doc path id = ref)) as [<-|Hne].
    + destruct (completeWelcomeStep_existing path id designation
                  additionalData db old Hold) as (new & -> & Hk).
      exists new. simpl store_after.
      split; [apply commit_lookup|].
      specialize (Hk "onboardingStatus").
      destruct (default no_additionalData additionalData !! "onboardingStatus")
        as [v|]; [by right|].
      exists pending_admin_approval.
      split; [by apply (status_of_lookup new pending_admin_approval)|].
      destruct s; simpl; [left; lia | left; lia | by right].
    + exists old. rewrite completeWelcomeStep_other by done.
      split; [done|].
      assert (∃ s', status_of old = Some s' ∧
                (status_rank s ≤ status_rank s')%nat) as Hsame.
      { exists s. split; [done|lia]. }
      destruct (default no_additionalData additionalData !! "onboardingStatus");
        [by left|].
      destruct Hsame as (s' & ? & ?). exists s'. split; [done|by left].
  - destruct (decide (doc path id = ref)) as [<-|Hne].
    + destruct (approveUser_existing path id db old Hold)
        as (new & -> & Hst & _).
      exists new. simpl store_after.
      split; [apply commit_lookup|].
      exists active.
      split; [by apply (status_of_lookup new active)|].
      left. destruct s; simpl; lia.
    + exists old. rewrite approveUser_other by done.
      split; [done|]. exists s. split; [done|]. left. lia.
Qed.

Lemma status_backward_only_by_completeWelcomeStep_witness :
  ∃ new : DocumentData,
    documents (run (OpApprove "users" "alice") alice_pending)
      !! doc "users" "alice" = Some new ∧
    ∃ s', status_of new = Some s' ∧
      ((status_rank pending_admin_approval ≤ status_rank s')%nat ∨
       (completes_welcome_at (OpApprove "users" "alice") (doc "users" "alice") ∧
        pending_admin_approval = active ∧ s' = pending_admin_approval)).
Proof.
  apply (status_backward_only_by_completeWelcomeStep
           (OpApprove "users" "alice") alice_pending (doc "users" "alice")
           (default ∅ (profile_at alice_pending "users" "alice"))
           pending_admin_approval).
  - reflexivity.
  - reflexivity.
Defined.

(** ** Null designation *)

Lemma empty_store_designation_invariant now :
  store_designation_invariant (empty_store now).
Proof. intros ref profile H. simpl in H. by rewrite lookup_empty in H. Qed.

(** C4, as stated, fails: [approveUser] is unconditional, so applied to the
    record a first login has just created (reachable, and satisfying the
    invariant) it leaves a record whose designation is null while its
    status is ['active']. *)
Lemma approveUser_leaves_null_designation :
  reachable (run (OpApprove "users" "alice") alice_created) ∧
  ¬ store_designation_invariant (run (OpApprove "users" "alice") alice_created).
Proof.
  split; [apply reachable_run, reachable_alice_created|].
  intros H.
  specialize (H (doc "users" "alice")
    (default ∅ (profile_at (run (OpApprove "users" "alice") alice_created)
                  "users" "alice"))).
  assert (default ∅ (profile_at (run (OpApprove "users" "alice") alice_created)
                       "users" "alice") !! "onboardingStatus"
          = Some (VStr "pending_profile")) as Hs.
  { apply H; reflexivity. }
  vm_compute in Hs. discriminate.
Qed.

(** C4, amended: a record created by a first login has a null designation
    and status ['pending_profile'], and the invariant "designation is null
    only while the status is ['pending_profile']" carries over from the
    store before to the store after every [handleLogin], every
    [completeWelcomeStep] whose [additionalData] does not carry
    [designation: null], and every [approveUser] applied to a record whose
    designation is not null (or to no record). *)
Theorem designation_invariant_kept (o : operation) (db : Firestore) :
  store_designation_invariant db →
  keeps_designation o db →
  store_designation_invariant (run o db).
Proof.
  intros Hinv Hkeep ref new Hnew.
  destruct o as [user options | path id designation additionalData | path id];
    simpl in Hnew, Hkeep.
  - destruct (handleLogin_store user options db)
      as [Heq | (id & profile & Hnone & Heq & Hd & Hs)];
      rewrite Heq in Hnew; [by apply (Hinv ref)|].
    cbv zeta in Hnone.
    destruct (decide
      (doc (default DEFAULT_USERS_COLLECTION (usersCollectionPath options)) id
       = ref)) as [<-|Hne].
    + rewrite commit_lookup in Hnew. injection Hnew as <-. by intros _.
    + rewrite commit_lookup_ne in Hnew by done. by apply (Hinv ref).
  - destruct (decide (doc path id = ref)) as [<-|Hne].
    + destruct (documents db !! doc path id) as [old|] eqn:Hold.
      * destruct (completeWelcomeStep_existing path id designation
                    additionalData db old Hold) as (new' & Hrun & Hk).
        rewrite Hrun in Hnew. simpl store_after in Hnew.
        rewrite commit_lookup in Hnew. injection Hnew as <-.
        intros Hnull. rewrite Hk in Hnull. simpl in Hnull.
        destruct (default no_additionalData additionalData !! "designation")
          as [v|]; [|done].
        by destruct v.
      * rewrite completeWelcomeStep_missing in Hnew by done.
        by rewrite Hold in Hnew.
    + rewrite completeWelcomeStep_other in Hnew by done. by apply (Hinv ref).
  - destruct (decide (doc path id = ref)) as [<-|Hne].
    + destruct (documents db !! doc path id) as [old|] eqn:Hold.
      * destruct (approveUser_existing path id db old Hold)
          as (new' & Hrun & _ & _ & Hk).
        rewrite Hrun in Hnew. simpl store_after in Hnew.
        rewrite commit_lookup in Hnew. injection Hnew as <-.
        intros Hnull. rewrite Hk in Hnull by done.
        by destruct (Hkeep old).
      * rewrite approveUser_missing in Hnew by done.
        by rewrite Hold in Hnew.
    + rewrite approveUser_other in Hnew by done. by apply (Hinv ref).
Qed.

Lemma designation_invariant_kept_witness :
  store_designation_invariant alice_active.
Proof.
  apply (designation_invariant_kept (OpApprove "users" "alice") alice_pending).
  - apply (designation_invariant_kept
             (OpCompleteWelcome "users" "alice" "engineer" None) alice_created).
    + apply (designation_invariant_kept
               (OpLogin (Some alice) default_options) (empty_store 0)).
      * apply empty_store_designation_invariant.
      * exact I.
    + simpl. discriminate.
  - intros old Hold.
    replace old with (default ∅ (profile_at alice_pending "users" "alice")).
    + intros H. vm_compute in H. discriminate.
    + unfold profile_at. by rewrite Hold.
Defined.

(** The side condition on [completeWelcomeStep] is needed: with
    [{designation: null}] as [additionalData] the record reaches
    [pending_admin_approval] with a null designation. *)
Example completeWelcomeStep_null_designation :
  ¬ store_designation_invariant
      (run (OpCompleteWelcome "users" "alice" "engineer"
              (Some null_designation_data)) alice_created).
Proof.
  intros H.
  specialize (H (doc "users" "alice")
    (default ∅ (profile_at
       (run (OpCompleteWelcome "users" "alice" "engineer"
               (Some null_designation_data)) alice_created)
       "users" "alice"))).
  assert (default ∅ (profile_at
            (run (OpCompleteWelcome "users" "alice" "engineer"
                    (Some null_designation_data)) alice_created)
            "users" "alice") !! "onboardingStatus"
          = Some (VStr "pending_profile")) as Hs.
  { apply H; reflexivity. }
  vm_compute in Hs. discriminate.
Qed.

(** * Further properties of the code *)

(** ** [getUserProfile] and [bootstrapNewUser] *)

Lemma getUserProfile_run path id db :
  getUserProfile path id db = Resolved (documents db !! doc path id) db.
Proof.
  unfold getUserProfile, getDoc, mbind, Async_bind, mret, Async_ret.
  by destruct (documents db !! doc path id).
Qed.

Lemma bootstrapNewUser_run path user id db :
  uid user = Some id →
  bootstrapNewUser path user db =
  Resolved (default_profile id user VServerTimestamp)
    (commit (doc path id)
       (default_profile id user (VTimestamp (serverTime db))) db).
Proof.
  intros Huid. unfold bootstrapNewUser. rewrite Huid.
  unfold setDoc, mbind, Async_bind, mret, Async_ret, default_profile.
  rewrite !fmap_insert, fmap_empty. simpl.
  by rewrite !resolve_sentinel_nullable.
Qed.

Lemma default_profile_other id user stamp k :
  k ≠ "uid" → k ≠ "email" → k ≠ "displayName" → k ≠ "designation" →
  k ≠ "isAdmin" → k ≠ "onboardingStatus" → k ≠ "createdAt" → k ≠ "updatedAt" →
  default_profile id user stamp !! k = None.
Proof.
  intros. unfold default_profile. by rewrite !lookup_insert_ne, lookup_empty.
Qed.

Lemma default_profile_stamp id user s t k :
  k ≠ "createdAt" → k ≠ "updatedAt" →
  default_profile id user s !! k = default_profile id user t !! k.
Proof.
  intros. unfold default_profile.
  by rewrite !(lookup_insert_ne _ "updatedAt"), !(lookup_insert_ne _ "createdAt").
Qed.

(** X1: the profile that [bootstrapNewUser] returns is not the document it
    stored.  Read back with [getUserProfile], the stored document has the
    server's time of the write in [createdAt] and [updatedAt], where the
    returned object still has the [serverTimestamp()] sentinel; every other
    property is the same in both. *)
Theorem bootstrapNewUser_then_getUserProfile (path : string)
    (user : FirebaseUser) (id : string) (db : Firestore) :
  uid user = Some id →
  ∃ (returned stored : DocumentData) (db' : Firestore),
    bootstrapNewUser path user db = Resolved returned db' ∧
    getUserProfile path id db' = Resolved (Some stored) db' ∧
    returned !! "createdAt" = Some VServerTimestamp ∧
    returned !! "updatedAt" = Some VServerTimestamp ∧
    stored !! "createdAt" = Some (VTimestamp (serverTime db)) ∧
    stored !! "updatedAt" = Some (VTimestamp (serverTime db)) ∧
    ∀ k, k ≠ "createdAt" → k ≠ "updatedAt" → stored !! k = returned !! k.
Proof.
  intros Huid. eexists _, _, _. split.
  { by apply bootstrapNewUser_run. }
  split.
  { rewrite getUserProfile_run. by rewrite commit_lookup. }
  repeat split; try done.
  intros k ? ?. by apply default_profile_stamp.
Qed.

Lemma bootstrapNewUser_then_getUserProfile_witness :
  ∃ (returned stored : DocumentData) (db' : Firestore),
    bootstrapNewUser "users" alice (empty_store 0) = Resolved returned db' ∧
    getUserProfile "users" "alice" db' = Resolved (Some stored) db' ∧
    returned !! "createdAt" = Some VServerTimestamp ∧
    returned !! "updatedAt" = Some VServerTimestamp ∧
    stored !! "createdAt" = Some (VTimestamp 0) ∧
    stored !! "updatedAt" = Some (VTimestamp 0) ∧
    ∀ k, k ≠ "createdAt" → k ≠ "updatedAt" → stored !! k = returned !! k.
Proof.
  apply (bootstrapNewUser_then_getUserProfile "users" alice "alice"
           (empty_store 0)).
  reflexivity.
Defined.

(** X2: [bootstrapNewUser] does not look at the store: called for a user
    who already has a record, it replaces the whole record by the default
    profile.  Whatever the record held, it is afterwards not an
    administrator, in [pending_profile], with a null designation and fresh
    timestamps, and it has no property beyond the eight of the profile.  No
    other record is touched. *)
Theorem bootstrapNewUser_overwrites (path : string) (user : FirebaseUser)
    (id : string) (db : Firestore) (old : DocumentData) :
  uid user = Some id →
  documents db !! doc path id = Some old →
  ∃ (returned stored : DocumentData) (db' : Firestore),
    bootstrapNewUser path user db = Resolved returned db' ∧
    documents db' !! doc path id = Some stored ∧
    stored !! "uid" = Some (VStr id) ∧
    stored !! "email" = Some (nullable (email user)) ∧
    stored !! "displayName" = Some (nullable (displayName user)) ∧
    stored !! "designation" = Some VNull ∧
    stored !! "isAdmin" = Some (VBool false) ∧
    stored !! "onboardingStatus" = Some (VStr "pending_profile") ∧
    stored !! "createdAt" = Some (VTimestamp (serverTime db)) ∧
    stored !! "updatedAt" = Some (VTimestamp (serverTime db)) ∧
    (∀ k, k ≠ "uid" → k ≠ "email" → k ≠ "displayName" → k ≠ "designation" →
          k ≠ "isAdmin" → k ≠ "onboardingStatus" → k ≠ "createdAt" →
          k ≠ "updatedAt" → stored !! k = None) ∧
    (∀ ref', ref' ≠ doc path id → documents db' !! ref' = documents db !! ref').
Proof.
  intros Huid _. eexists _, _, _. split.
  { by apply bootstrapNewUser_run. }
  split; [apply commit_lookup|].
  repeat split; try done.
  - intros k. apply default_profile_other.
  - intros ref' Hne. by apply commit_lookup_ne.
Qed.

Lemma bootstrapNewUser_overwrites_witness :
  ∃ (returned stored : DocumentData) (db' : Firestore),
    bootstrapNewUser "users" alice (store_with admin_profile)
      = Resolved returned db' ∧
    documents db' !! doc "users" "alice" = Some stored ∧
    stored !! "isAdmin" = Some (VBool false) ∧
    stored !! "onboardingStatus" = Some (VStr "pending_profile").
Proof.
  destruct (bootstrapNewUser_overwrites "users" alice "alice"
              (store_with admin_profile) admin_profile)
    as (returned & stored & db' & H1 & H2 & _ & _ & _ & _ & H3 & H4 & _).
  - reflexivity.
  - reflexivity.
  - by exists returned, stored, db'.
Defined.

(** ** The write helpers on a missing record *)

(** X3: [completeWelcomeStep] for a user who has no record is rejected
    (not found) and leaves the store exactly as it was: it never creates a
    record, whatever its arguments. *)
Theorem completeWelcomeStep_missing_record (path id designation : string)
    (additionalData : option AdditionalData) (db : Firestore) :
  documents db !! doc path id = None →
  completeWelcomeStep path id designation additionalData db
  = Rejected NotFound db.
Proof. intros Hnone. unfold completeWelcomeStep. by apply updateDoc_missing. Qed.

Lemma completeWelcomeStep_missing_record_witness :
  completeWelcomeStep "users" "alice" "engineer" (Some manager_data)
    (empty_store 0)
  = Rejected NotFound (empty_store 0).
Proof.
  apply (completeWelcomeStep_missing_record "users" "alice" "engineer"
           (Some manager_data) (empty_store 0)).
  reflexivity.
Defined.

(** X4: [approveUser] for a user who has no record is rejected (not found)
    and leaves the store exactly as it was: approval never creates a
    record. *)
Theorem approveUser_missing_record (path id : string) (db : Firestore) :
  documents db !! doc path id = None →
  approveUser path id db = Rejected NotFound db.
Proof. intros Hnone. unfold approveUser. by apply updateDoc_missing. Qed.

Lemma approveUser_missing_record_witness :
  approveUser "users" "alice" (empty_store 0)
  = Rejected NotFound (empty_store 0).
Proof.
  apply (approveUser_missing_record "users" "alice" (empty_store 0)).
  reflexivity.
Defined.

(** ** Repeated calls *)

(** X5: approving a user twice is the same as approving once, up to the
    time of the last write: both calls resolve, the status is ['active']
    after each, and the two records differ in [updatedAt] only. *)
Theorem approveUser_twice (path id : string) (db : Firestore)
    (old : DocumentData) :
  documents db !! doc path id = Some old →
  ∃ (db1 db2 : Firestore) (new1 new2 : DocumentData),
    approveUser path id db = Resolved () db1 ∧
    approveUser path id db1 = Resolved () db2 ∧
    documents db1 !! doc path id = Some new1 ∧
    documents db2 !! doc path id = Some new2 ∧
    new2 !! "onboardingStatus" = Some (VStr "active") ∧
    (∀ k, k ≠ "updatedAt" → new2 !! k = new1 !! k) ∧
    new1 !! "updatedAt" = Some (VTimestamp (serverTime db)) ∧
    new2 !! "updatedAt" = Some (VTimestamp (N.succ (serverTime db))).
Proof.
  intros Hold.
  destruct (approveUser_existing path id db old Hold)
    as (new1 & Hrun1 & Hs1 & Ht1 & Hk1).
  destruct (approveUser_existing path id (commit (doc path id) new1 db) new1
              (commit_lookup _ _ _))
    as (new2 & Hrun2 & Hs2 & Ht2 & Hk2).
  eexists _, _, new1, new2.
  split; [done|]. split; [done|].
  split; [apply commit_lookup|]. split; [apply commit_lookup|].
  split; [done|]. split; [|done].
  intros k Hk. destruct (decide (k = "onboardingStatus")) as [->|Hne].
  - by rewrite Hs1, Hs2.
  - by apply Hk2.
Qed.

Lemma approveUser_twice_witness :
  ∃ (db1 db2 : Firestore) (new1 new2 : DocumentData),
    approveUser "users" "alice" (store_with corrupt_profile) = Resolved () db1 ∧
    approveUser "users" "alice" db1 = Resolved () db2 ∧
    documents db1 !! doc "users" "alice" = Some new1 ∧
    documents db2 !! doc "users" "alice" = Some new2 ∧
    new2 !! "onboardingStatus" = Some (VStr "active") ∧
    (∀ k, k ≠ "updatedAt" → new2 !! k = new1 !! k) ∧
    new1 !! "updatedAt" = Some (VTimestamp 7) ∧
    new2 !! "updatedAt" = Some (VTimestamp 8).
Proof.
  apply (approveUser_twice "users" "alice" (store_with corrupt_profile)
           corrupt_profile).
  reflexivity.
Defined.



(** The cases of [handleLogin]: the store is left as it was, or the user
    had no record and the default profile is stored for them. *)
Lemma handleLogin_cases user options db :
  (∃ d, handleLogin user options db = Resolved d db) ∨
  ∃ (u : FirebaseUser) (id : string),
    let ref :=
      doc (default DEFAULT_USERS_COLLECTION (usersCollectionPath options)) id in
    user = Some u ∧ uid u = Some id ∧ id ≠ "" ∧
    documents db !! ref = None ∧
    handleLogin user options db =
    Resolved (Redirect welcome)
      (commit ref (default_profile id u (VTimestamp (serverTime db))) db).
Proof.
  destruct user as [u|]; [|left; by eexists].
  destruct (uid u) as [id|] eqn:Huid.
  2:{ left. eexists. apply handleLogin_guard. left. simpl. by rewrite Huid. }
  destruct (decide (id = "")) as [->|Hne].
  { left. eexists. apply handleLogin_guard. right. simpl. by rewrite Huid. }
  destruct (documents db !!
    doc (default DEFAULT_USERS_COLLECTION (usersCollectionPath options)) id)
    as [profile|] eqn:Hp.
  - left. eexists. by apply (handleLogin_existing u id options db Huid Hne profile).
  - right. exists u, id. cbv zeta. repeat split; try done.
    by apply (handleLogin_absent u id options db Huid Hne).
Qed.

(** X7: a login repeated on the store that the first login left gives the
    same answer and the same store: whatever the identity and the store,
    the second [handleLogin] writes nothing.  In particular a user whose
    record the first login created is sent to the welcome page again. *)
Theorem handleLogin_repeated (user : option FirebaseUser)
    (options : HandleLoginOptions) (db : Firestore) :
  handleLogin user options (store_after (handleLogin user options db))
  = handleLogin user options db.
Proof.
  destruct (handleLogin_cases user options db)
    as [(d & Hrun) | (u & id & -> & Huid & Hne & Hnone & Hrun)].
  - by rewrite Hrun.
  - cbv zeta in Hnone, Hrun. rewrite Hrun. simpl store_after.
    by rewrite (handleLogin_existing u id options _ Huid Hne _
                  (commit_lookup _ _ _)).
Qed.

(** ** What [completeWelcomeStep] stores *)





(** ** A write helper followed by a login *)



(** X11: after an [approveUser] on an existing record the user's next
    login is answered redirect-to-dashboard, whatever status the record had
    before: approval does not require the welcome step to have been
    completed.  An administrator is still sent to the admin page. *)
Theorem approveUser_then_handleLogin (user : FirebaseUser) (id : string)
    (options : HandleLoginOptions) (db : Firestore) (old : DocumentData) :
  let path := default DEFAULT_USERS_COLLECTION (usersCollectionPath options) in
  uid user = Some id →
  id ≠ "" →
  documents db !! doc path id = Some old →
  ∃ db' : Firestore,
    approveUser path id db = Resolved () db' ∧
    handleLogin (Some user) options db' =
    Resolved (if truthy (old !! "isAdmin") then Redirect admin
              else Redirect dashboard) db'.
Proof.
  intros path Huid Hne Hold.
  destruct (approveUser_existing path id db old Hold)
    as (new & Hrun & Hs & _ & Hk).
  eexists. split; [done|].
  rewrite (handleLogin_existing user id options _ Huid Hne new
             (commit_lookup _ _ _)).
  rewrite Hs, (Hk "isAdmin") by done.
  by destruct (truthy (old !! "isAdmin")).
Qed.

Lemma approveUser_then_handleLogin_witness :
  ∃ db' : Firestore,
    approveUser "users" "alice" alice_created = Resolved () db' ∧
    handleLogin (Some alice) default_options db'
    = Resolved (Redirect dashboard) db'.
Proof.
  apply (approveUser_then_handleLogin alice "alice" default_options
           alice_created
           (default ∅ (profile_at alice_created "users" "alice"))).
  - reflexivity.
  - discriminate.
  - reflexivity.
Defined.





(** ** [handleLogin] *)

(** X14: for a user who has a record, [handleLogin] answers
    redirect-to-admin exactly when the record's [isAdmin] is truthy.  The
    code tests the stored value as it is, so a non-empty string or a
    timestamp there makes an administrator as [true] does, and a missing,
    null, [false] or empty value does not. *)
Theorem handleLogin_admin_iff_truthy (user : FirebaseUser) (id : string)
    (options : HandleLoginOptions) (db : Firestore) (profile : DocumentData) :
  uid user = Some id →
  id ≠ "" →
  documents db !!
    doc (default DEFAULT_USERS_COLLECTION (usersCollectionPath options)) id
    = Some profile →
  handleLogin (Some user) options db = Resolved (Redirect admin) db
  ↔ truthy (profile !! "isAdmin") = true.
Proof.
  intros Huid Hne Hp.
  rewrite (handleLogin_existing user id options db Huid Hne profile Hp).
  destruct (truthy (profile !! "isAdmin")); [done|].
  split; [|done].
  by repeat (destruct (strict_eq _ _); [done|]).
Qed.

Lemma handleLogin_admin_iff_truthy_witness :
  handleLogin (Some alice) default_options (store_with flagged_profile)
  = Resolved (Redirect admin) (store_with flagged_profile).
Proof.
  apply (handleLogin_admin_iff_truthy alice "alice" default_options
           (store_with flagged_profile) flagged_profile).
  - reflexivity.
  - discriminate.
  - reflexivity.
  - reflexivity.
Defined.


(** X16: the answer of [handleLogin] depends on the store through the
    user's own record only: on two stores that agree at the user's key in
    the users collection, the same identity gets the same decision,
    whatever else the stores hold. *)
Theorem handleLogin_own_record_only (user : FirebaseUser) (id : string)
    (options : HandleLoginOptions) (db1 db2 : Firestore) :
  let ref :=
    doc (default DEFAULT_USERS_COLLECTION (usersCollectionPath options)) id in
  uid user = Some id →
  documents db1 !! ref = documents db2 !! ref →
  answer (handleLogin (Some user) options db1)
  = answer (handleLogin (Some user) options db2).
Proof.
  intros ref Huid Heq.
  destruct (decide (id = "")) as [->|Hne].
  { rewrite !(handleLogin_guard (Some user)); [done|right..];
      simpl; by rewrite Huid. }
  destruct (documents db2 !! ref) as [profile|] eqn:Hp.
  - by rewrite (handleLogin_existing user id options db1 Huid Hne profile Heq),
      (handleLogin_existing user id options db2 Huid Hne profile Hp).
  - by rewrite (handleLogin_absent user id options db1 Huid Hne Heq),
      (handleLogin_absent user id options db2 Huid Hne Hp).
Qed.

Lemma handleLogin_own_record_only_witness :
  answer (handleLogin (Some alice) default_options alice_active)
  = answer (handleLogin (Some alice) default_options
              (run (OpLogin (Some bob) default_options) alice_active)).
Proof.
  apply (handleLogin_own_record_only alice "alice" default_options
           alice_active
           (run (OpLogin (Some bob) default_options) alice_active)).
  - reflexivity.
  - reflexivity.
Defined.

(** ** The operations as steps on the store, continued *)

(** X17: an operation changes at most the record of the user it is called
    for: a login the record at the identity's uid in the configured
    collection, [completeWelcomeStep] and [approveUser] the record at the
    given path and uid.  Every other record, and every key that has no
    record, is after the operation as it was before. *)
Theorem run_frame (o : operation) (db : Firestore) (ref : DocumentReference) :
  target o ≠ Some ref →
  documents (run o db) !! ref = documents db !! ref.
Proof.
  intros Hne.
  destruct o as [user options | path id designation additionalData | path id];
    simpl in *.
  - destruct (handleLogin_cases user options db)
      as [(d & ->) | (u & id & -> & Huid & _ & _ & ->)]; [done|].
    simpl in *. rewrite Huid in Hne. simpl in Hne.
    apply lookup_insert_ne. congruence.
  - apply completeWelcomeStep_other. congruence.
  - apply approveUser_other. congruence.
Qed.

Lemma run_frame_witness :
  documents (run (OpApprove "users" "alice") alice_pending)
    !! doc "users" "bob"
  = documents alice_pending !! doc "users" "bob".
Proof.
  apply (run_frame (OpApprove "users" "alice") alice_pending
           (doc "users" "bob")).
  simpl. discriminate.
Defined.

Lemma record_created_by_login (o : operation) (db : Firestore)
    (ref : DocumentReference) (new : DocumentData) :
  documents db !! ref = None →
  documents (run o db) !! ref = Some new →
  ∃ (user : FirebaseUser) (id : string) (options : HandleLoginOptions),
    o = OpLogin (Some user) options ∧
    uid user = Some id ∧
    ref = doc (default DEFAULT_USERS_COLLECTION (usersCollectionPath options))
            id ∧
    new = default_profile id user (VTimestamp (serverTime db)).
Proof.
  intros Hnone Hnew.
  destruct o as [user options | path id designation additionalData | path id];
    simpl in Hnew.
  - destruct (handleLogin_cases user options db)
      as [(d & Hrun) | (u & id & -> & Huid & _ & _ & Hrun)];
      rewrite Hrun in Hnew; simpl store_after in Hnew; [congruence|].
    destruct (decide
      (doc (default DEFAULT_USERS_COLLECTION (usersCollectionPath options)) id
       = ref)) as [<-|Hne].
    + rewrite commit_lookup in Hnew. injection Hnew as <-.
      by exists u, id, options.
    + rewrite commit_lookup_ne in Hnew by done. congruence.
  - destruct (decide (doc path id = ref)) as [<-|Hne].
    + rewrite completeWelcomeStep_missing in Hnew by done. congruence.
    + rewrite completeWelcomeStep_other in Hnew by done. congruence.
  - destruct (decide (doc path id = ref)) as [<-|Hne].
    + rewrite approveUser_missing in Hnew by done. congruence.
    + rewrite approveUser_other in Hnew by done. congruence.
Qed.

(** X18: a record comes into being through a login only, and as the
    default profile: when an operation leaves a record at a key that had
    none, the operation is a [handleLogin] of an identity with that uid,
    the key is in the configured collection, and the record is the default
    profile of that identity, stamped with the server's time. *)
Theorem record_created_only_by_handleLogin (o : operation) (db : Firestore)
    (ref : DocumentReference) (new : DocumentData) :
  documents db !! ref = None →
  documents (run o db) !! ref = Some new →
  ∃ (user : FirebaseUser) (id : string) (options : HandleLoginOptions),
    o = OpLogin (Some user) options ∧
    uid user = Some id ∧
    ref = doc (default DEFAULT_USERS_COLLECTION (usersCollectionPath options))
            id ∧
    new = default_profile id user (VTimestamp (serverTime db)).
Proof. apply record_created_by_login. Qed.

Lemma record_created_only_by_handleLogin_witness :
  ∃ (user : FirebaseUser) (id : string) (options : HandleLoginOptions),
    OpLogin (Some alice) default_options = OpLogin (Some user) options ∧
    uid user = Some id ∧
    doc "users" "alice"
    = doc (default DEFAULT_USERS_COLLECTION (usersCollectionPath options)) id ∧
    default_profile "alice" alice (VTimestamp 0)
    = default_profile id user (VTimestamp (serverTime (empty_store 0))).
Proof.
  apply (record_created_only_by_handleLogin
           (OpLogin (Some alice) default_options) (empty_store 0)
           (doc "users" "alice") (default_profile "alice" alice (VTimestamp 0))).
  - reflexivity.
  - reflexivity.
Defined.

(** ** Records as the core writes them *)






